(** * GO Feature Flag provider: the generic resolution path

    A shallow embedding of [gofeatureflag_python_provider/provider.py]:
    the five typed [resolve_*_details] methods and the generic resolver
    they delegate to, with the exceptions of the [try] block passed
    explicitly and the collaborators of the method (the HTTP client held
    by the provider, the pydantic decoder of the response model) taken as
    parameters. *)

From Stdlib Require Import ZArith String Ascii List Bool Floats Lia.
Import ListNotations.

Set Warnings "-register-all".

Open Scope string_scope.
Open Scope Z_scope.

(** ** Python values *)

(** The values [json.loads] produces, and the values the provider passes
    around as [JsonType]: [None], [bool], [int], [float], [str], [list]
    and [dict] with string keys. A [dict] is kept as an association
    list in insertion order; its keys are distinct, and a lookup takes
    the first entry of a key. *)
Inductive json : Type :=
| PNone
| PBool (b : bool)
| PInt (n : Z)
| PFloat (f : float)
| PStr (s : string)
| PList (items : list json)
| PDict (entries : list (string * json)).

(** [type(v).__name__] *)
Definition type_name (v : json) : string :=
  match v with
  | PNone => "NoneType"
  | PBool _ => "bool"
  | PInt _ => "int"
  | PFloat _ => "float"
  | PStr _ => "str"
  | PList _ => "list"
  | PDict _ => "dict"
  end.

(** [type(v) == int]: exact, so [True] and [False] are not of type
    [int] although [bool] is a subclass of it. *)
Definition type_is_int (v : json) : bool :=
  match v with
  | PInt _ => true
  | _ => false
  end.

Fixpoint lookup (k : string) (entries : list (string * json)) : option json :=
  match entries with
  | [] => None
  | (k', v) :: rest => if String.eqb k k' then Some v else lookup k rest
  end.

(** The [original_type] argument of the generic resolver, as the five
    typed methods pass it: [bool], [str], [int], [float] and
    [Union[dict, list]]. *)
Inductive PyType : Type :=
| TBool
| TStr
| TInt
| TFloat
| TObject.

Definition PyType_eqb (a b : PyType) : bool :=
  match a, b with
  | TBool, TBool | TStr, TStr | TInt, TInt | TFloat, TFloat
  | TObject, TObject => true
  | _, _ => false
  end.

(** [isinstance]-free typing of a value against a declared type: the
    value is of exactly the declared Python type. *)
Definition has_type (t : PyType) (v : json) : bool :=
  match t, v with
  | TBool, PBool _ => true
  | TStr, PStr _ => true
  | TInt, PInt _ => true
  | TFloat, PFloat _ => true
  | TObject, PDict _ => true
  | TObject, PList _ => true
  | _, _ => false
  end.

(** ** Enumerations of the OpenFeature SDK *)

Inductive Reason : Type :=
| CACHED
| DEFAULT
| DISABLED
| ERROR
| STATIC
| SPLIT
| TARGETING_MATCH
| UNKNOWN.

Definition Reason_value (r : Reason) : string :=
  match r with
  | CACHED => "CACHED"
  | DEFAULT => "DEFAULT"
  | DISABLED => "DISABLED"
  | ERROR => "ERROR"
  | STATIC => "STATIC"
  | SPLIT => "SPLIT"
  | TARGETING_MATCH => "TARGETING_MATCH"
  | UNKNOWN => "UNKNOWN"
  end.

Inductive ErrorCode : Type :=
| PROVIDER_NOT_READY
| FLAG_NOT_FOUND
| PARSE_ERROR
| TYPE_MISMATCH
| TARGETING_KEY_MISSING
| INVALID_CONTEXT
| GENERAL.

Definition ErrorCode_value (c : ErrorCode) : string :=
  match c with
  | PROVIDER_NOT_READY => "PROVIDER_NOT_READY"
  | FLAG_NOT_FOUND => "FLAG_NOT_FOUND"
  | PARSE_ERROR => "PARSE_ERROR"
  | TYPE_MISMATCH => "TYPE_MISMATCH"
  | TARGETING_KEY_MISSING => "TARGETING_KEY_MISSING"
  | INVALID_CONTEXT => "INVALID_CONTEXT"
  | GENERAL => "GENERAL"
  end.

(** ** Exceptions *)

(** The exceptions the three [except] clauses tell apart:
    pydantic's [ValidationError]; an [OpenFeatureError], whose
    subclasses [FlagNotFoundError], [TypeMismatchError] and
    [GeneralError] fix the error code; and any other [Exception], of
    which only [str(exc)] is used. *)
Inductive exn : Type :=
| ValidationError (errors : string)
| OpenFeatureError (error_code : ErrorCode) (error_message : string)
| OtherException (text : string).

Definition FlagNotFoundError (msg : string) : exn :=
  OpenFeatureError FLAG_NOT_FOUND msg.

Definition TypeMismatchError (msg : string) : exn :=
  OpenFeatureError TYPE_MISMATCH msg.

Definition GeneralError (msg : string) : exn :=
  OpenFeatureError GENERAL msg.

Definition is_open_feature_error (e : exn) : bool :=
  match e with
  | OpenFeatureError _ _ => true
  | _ => false
  end.

(** A call returns a value or raises. *)
Inductive outcome (A : Type) : Type :=
| Returns (a : A)
| Raises (e : exn).

Arguments Returns {A} a.
Arguments Raises {A} e.

Definition bind {A B : Type} (c : outcome A) (k : A -> outcome B) : outcome B :=
  match c with
  | Returns a => k a
  | Raises e => Raises e
  end.

Notation "x <- c ;; k" := (bind c (fun x => k))
  (at level 61, c at next level, right associativity).

(** [try: c except Exception as exc: raise h(exc)] *)
Definition try_except {A : Type} (c : outcome A) (h : exn -> exn) : outcome A :=
  match c with
  | Returns a => Returns a
  | Raises e => Raises (h e)
  end.

(** ** Messages *)

Fixpoint starts_with (p s : string) : bool :=
  match p, s with
  | EmptyString, _ => true
  | String a p', String b s' => Ascii.eqb a b && starts_with p' s'
  | String _ _, EmptyString => false
  end.

(** [needle in hay] on [str]. *)
Fixpoint contains (needle hay : string) : bool :=
  starts_with needle hay ||
  match hay with
  | EmptyString => false
  | String _ hay' => contains needle hay'
  end.

(** ** Data exchanged with the relay proxy *)

(** Modelled from the spec: [EvaluationContext] of the SDK, a targeting
    key and a mapping of attribute names to JSON values. *)
Record EvaluationContext : Type := {
  targeting_key : string;
  attributes : list (string * json)
}.

(** Modelled from the spec: [GoFeatureFlagUser] of
    [request_flag_evaluation.py], which is not among the sources:
    a key and the custom attributes. *)
Record GoFeatureFlagUser : Type := {
  key : string;
  custom : list (string * json)
}.

(** Modelled from the spec: [user_from_evaluation_context] of
    [request_flag_evaluation.py]: a total function; without a context
    the user has an empty key and no custom attribute, otherwise the
    targeting key becomes the key and the attributes are copied. *)
Definition user_from_evaluation_context
    (ctx : option EvaluationContext) : GoFeatureFlagUser :=
  match ctx with
  | None => {| key := ""; custom := [] |}
  | Some c => {| key := targeting_key c; custom := attributes c |}
  end.

(** Modelled from the spec: [RequestFlagEvaluation] of
    [request_flag_evaluation.py]: the user and the default value,
    assembled without validation. *)
Record RequestFlagEvaluation : Type := {
  user : GoFeatureFlagUser;
  defaultValue : json
}.

(** [urljoin(base, ref)], kept symbolic: the URL is only handed to the
    HTTP client. How [urllib] resolves the reference against the base
    (an absolute path replaces the path of the base, dot segments are
    removed) is not described: two terms that differ may stand for one
    URL. *)
Inductive Url : Type :=
| urljoin (base : string) (ref : string).

(** The arguments of [PoolManager.request]. The body is the request
    model whose [json()] is sent. *)
Record Request : Type := {
  method : string;
  url : Url;
  headers : list (string * string);
  body : RequestFlagEvaluation
}.

(** [response.data] as [json.loads] reads it: bytes that are not a JSON
    text (with the text of the [JSONDecodeError]), or a JSON document. *)
Inductive Payload : Type :=
| NotJson (why : string)
| Doc (j : json).

Record HTTPResponse : Type := {
  status : Z;
  data : Payload
}.

(** Modelled from the spec: [ResponseFlagEvaluation] of
    [response_flag_evaluation.py], which is not among the sources, with
    the four fields the resolver reads; [variationType] and [errorCode]
    may be absent. *)
Record ResponseFlagEvaluation : Type := {
  value : json;
  variationType : option string;
  reason : string;
  errorCode : option string
}.

(** [FlagEvaluationDetails.reason] holds what the resolver stores in it:
    the member [Reason.DISABLED] on the disabled path, the string of the
    response otherwise. *)
Inductive reason_field : Type :=
| ReasonMember (r : Reason)
| ReasonText (s : string).

(** [FlagEvaluationDetails] of the SDK: the fields the resolver sets;
    [variant] defaults to [None]. *)
Record FlagEvaluationDetails : Type := {
  flag_key : string;
  details_value : json;
  variant : option string;
  details_reason : reason_field
}.

(** ** Collaborators *)

Record GoFeatureFlagOptions : Type := {
  endpoint : string
}.

(** The provider: its options and the HTTP client chosen by the
    constructor. Of the client only [request] is used: it returns a
    response or raises. *)
Record GoFeatureFlagProvider : Type := {
  options : GoFeatureFlagOptions;
  _http_client : Request -> outcome HTTPResponse
}.

(** [ResponseFlagEvaluation[original_type].parse_raw]: pydantic's
    decoding of the payload against the response model, which returns
    the model or raises. *)
Record ResponseModel : Type := {
  parse_raw : PyType -> Payload -> outcome ResponseFlagEvaluation
}.

(** ** Library calls of the resolver *)

(** [json.loads(response.data)] *)
Definition json_loads (d : Payload) : outcome json :=
  match d with
  | NotJson why => Raises (OtherException why)
  | Doc j => Returns j
  end.

(** [response_json.get("value")]: [dict.get] gives [None] for a missing
    key; any other JSON value has no [get] and the attribute access
    raises [AttributeError]. *)
Definition py_get (response_json : json) (k : string) : outcome json :=
  match response_json with
  | PDict entries =>
      Returns (match lookup k entries with Some v => v | None => PNone end)
  | other =>
      Raises (OtherException
        ("'" ++ type_name other ++ "' object has no attribute 'get'"))
  end.

(** [json.loads(response.data).get("value")], lines 161 and 163. *)
Definition raw_value (d : Payload) : outcome json :=
  response_json <- json_loads d ;;
  py_get response_json "value".

(** [a == b] where [a] is an optional string and [b] a string. *)
Definition opt_str_eqb (a : option string) (b : string) : bool :=
  match a with
  | Some s => String.eqb s b
  | None => false
  end.

(** ** The resolver *)

Section Resolver.

Variable model : ResponseModel.
Variable self : GoFeatureFlagProvider.

(** The request of lines 137-144. *)
Definition evaluation_request (flag_key : string) (default_value : json)
    (evaluation_context : option EvaluationContext) : Request :=
  let goff_user := user_from_evaluation_context evaluation_context in
  let goff_request :=
    {| user := goff_user; defaultValue := default_value |} in
  {| method := "POST";
     url := urljoin (endpoint (options self))
                    ("/v1/feature/" ++ flag_key ++ "/eval");
     headers := [("Content-Type", "application/json")];
     body := goff_request |}.

(** The body of the [try] statement, lines 131-183. *)
Definition resolver_try (original_type : PyType) (flag_key : string)
    (default_value : json) (evaluation_context : option EvaluationContext)
    : outcome FlagEvaluationDetails :=
  response <- _http_client self
    (evaluation_request flag_key default_value evaluation_context) ;;
  if status response =? 404 then
    Raises (FlagNotFoundError
      ("flag " ++ flag_key ++ " was not found in your configuration"))
  else if status response >=? 400 then
    Raises (GeneralError
      "impossible to contact GO Feature Flag relay proxy instance")
  else
    response_flag_evaluation <-
      parse_raw model original_type (data response) ;;
    _ <- (if PyType_eqb original_type TInt then
            raw <- raw_value (data response) ;;
            if negb (type_is_int raw) then
              Raises (TypeMismatchError
                ("unexpected type for flag " ++ flag_key))
            else Returns tt
          else Returns tt) ;;
    if String.eqb (reason response_flag_evaluation) (Reason_value DISABLED)
    then
      Returns {| flag_key := flag_key;
                 details_value := default_value;
                 variant := None;
                 details_reason := ReasonMember DISABLED |}
    else if opt_str_eqb (errorCode response_flag_evaluation)
                        (ErrorCode_value FLAG_NOT_FOUND)
    then
      Raises (FlagNotFoundError
        ("flag " ++ flag_key ++ " was not found in your configuration"))
    else
      Returns {| flag_key := flag_key;
                 details_value := value response_flag_evaluation;
                 variant := variationType response_flag_evaluation;
                 details_reason :=
                   ReasonText (reason response_flag_evaluation) |}.

(** The three [except] clauses, lines 184-193, in their order. *)
Definition resolver_except (flag_key : string) (exc : exn) : exn :=
  match exc with
  | ValidationError _ =>
      TypeMismatchError ("unexpected type for flag " ++ flag_key)
  | OpenFeatureError c m => OpenFeatureError c m
  | OtherException text =>
      GeneralError
        ("unexpected error while evaluating flag " ++ flag_key ++ ": " ++ text)
  end.

Definition generic_go_feature_flag_resolver (original_type : PyType)
    (flag_key : string) (default_value : json)
    (evaluation_context : option EvaluationContext)
    : outcome FlagEvaluationDetails :=
  try_except
    (resolver_try original_type flag_key default_value evaluation_context)
    (resolver_except flag_key).

Definition resolve_boolean_details (flag_key : string) (default_value : json)
    (evaluation_context : option EvaluationContext) :=
  generic_go_feature_flag_resolver TBool flag_key default_value
    evaluation_context.

Definition resolve_string_details (flag_key : string) (default_value : json)
    (evaluation_context : option EvaluationContext) :=
  generic_go_feature_flag_resolver TStr flag_key default_value
    evaluation_context.

Definition resolve_integer_details (flag_key : string) (default_value : json)
    (evaluation_context : option EvaluationContext) :=
  generic_go_feature_flag_resolver TInt flag_key default_value
    evaluation_context.

Definition resolve_float_details (flag_key : string) (default_value : json)
    (evaluation_context : option EvaluationContext) :=
  generic_go_feature_flag_resolver TFloat flag_key default_value
    evaluation_context.

Definition resolve_object_details (flag_key : string) (default_value : json)
    (evaluation_context : option EvaluationContext) :=
  generic_go_feature_flag_resolver TObject flag_key default_value
    evaluation_context.

End Resolver.

(** ** The response model, from the spec *)

(** [float(n)] for an [int]: the nearest binary64 value, ties to even;
    an [int] beyond the range of [float] raises [OverflowError]. *)
Definition float_of_int (n : Z) : option float :=
  match SpecFloat.binary_normalize FloatOps.prec FloatOps.emax n 0 false with
  | SpecFloat.S754_infinity _ => None
  | sf => Some (FloatOps.SF2Prim sf)
  end.

(** [int(f)] for a [float]: truncation towards zero; no result for an
    infinity or a NaN. *)
Definition int_of_float (f : float) : option Z :=
  match FloatOps.Prim2SF f with
  | SpecFloat.S754_zero _ => Some 0
  | SpecFloat.S754_finite s m e =>
      let a := if 0 <=? e then Z.shiftl (Zpos m) e
               else Z.shiftr (Zpos m) (- e) in
      Some (if s then - a else a)
  | SpecFloat.S754_infinity _ => None
  | SpecFloat.S754_nan => None
  end.

(** Modelled from the spec: the decoding of the [value] field against
    the declared type, which [response_flag_evaluation.py] (not among
    the sources) leaves to pydantic. A value of the declared kind is
    kept as it is. Of pydantic's conversions the model has the ones the
    spec and the comment of line 162 name: a float is truncated to an
    [int], a boolean becomes the [int] 0 or 1 and an [int] becomes the
    nearest [float]; every other value of another kind is a type
    mismatch. *)
Definition validate_value (t : PyType) (v : json) : outcome json :=
  match t, v with
  | TBool, PBool _ => Returns v
  | TStr, PStr _ => Returns v
  | TInt, PInt _ => Returns v
  | TInt, PBool b => Returns (PInt (if b then 1 else 0))
  | TInt, PFloat f =>
      match int_of_float f with
      | Some n => Returns (PInt n)
      | None => Raises (ValidationError "value is not a valid integer")
      end
  | TFloat, PFloat _ => Returns v
  | TFloat, PInt n =>
      match float_of_int n with
      | Some f => Returns (PFloat f)
      | None => Raises (OtherException "int too large to convert to float")
      end
  | TObject, PDict _ => Returns v
  | TObject, PList _ => Returns v
  | _, _ => Raises (ValidationError "value has not the declared type")
  end.

(** An optional string field: absent or [null] is [None]. *)
Definition validate_optional_str (field : option json) : outcome (option string) :=
  match field with
  | None => Returns None
  | Some PNone => Returns None
  | Some (PStr s) => Returns (Some s)
  | Some _ => Raises (ValidationError "str type expected")
  end.

Definition validate_required_str (field : option json) : outcome string :=
  match field with
  | Some (PStr s) => Returns s
  | Some _ => Raises (ValidationError "str type expected")
  | None => Raises (ValidationError "field required")
  end.

(** Modelled from the spec: [ResponseFlagEvaluation[T].parse_raw] of
    [response_flag_evaluation.py], which is not among the sources: the
    payload must be a JSON object with a [value] of the declared type
    and a [reason]; [variationType] and [errorCode] are optional
    strings; anything else is a decoding failure. *)
Definition spec_parse_raw (t : PyType) (d : Payload)
    : outcome ResponseFlagEvaluation :=
  match d with
  | NotJson why => Raises (ValidationError why)
  | Doc (PDict entries) =>
      match lookup "value" entries with
      | None => Raises (ValidationError "field required")
      | Some raw =>
          v <- validate_value t raw ;;
          variation <- validate_optional_str (lookup "variationType" entries) ;;
          r <- validate_required_str (lookup "reason" entries) ;;
          code <- validate_optional_str (lookup "errorCode" entries) ;;
          Returns {| value := v; variationType := variation;
                     reason := r; errorCode := code |}
      end
  | Doc _ => Raises (ValidationError "value is not a valid dict")
  end.

Definition spec_model : ResponseModel :=
  {| parse_raw := spec_parse_raw |}.

(** A provider whose HTTP client answers every request with the same
    response, as the mocked pool manager of a test does. *)
Definition canned_provider (resp : HTTPResponse) : GoFeatureFlagProvider :=
  {| options := {| endpoint := "http://localhost:1031" |};
     _http_client := fun _ => Returns resp |}.

(** Whether a call raised an [OpenFeatureError]. *)
Definition raises_open_feature {A : Type} (c : outcome A) : bool :=
  match c with
  | Raises e => is_open_feature_error e
  | Returns _ => false
  end.

(** ** Sample responses *)

(** A disabled flag answered with a float literal as value. *)
Definition disabled_float_response : HTTPResponse :=
  {| status := 200;
     data := Doc (PDict [("value", PFloat 3%float);
                         ("reason", PStr "DISABLED")]) |}.

(** An unknown flag answered with status 200 and a float literal. *)
Definition not_found_float_response : HTTPResponse :=
  {| status := 200;
     data := Doc (PDict [("value", PFloat 3%float);
                         ("errorCode", PStr "FLAG_NOT_FOUND");
                         ("reason", PStr "ERROR")]) |}.

Definition server_error_response : HTTPResponse :=
  {| status := 500; data := NotJson "Expecting value" |}.

Definition missing_flag_response : HTTPResponse :=
  {| status := 404; data := NotJson "Expecting value" |}.

(** Scenario A of the spec. *)
Definition dark_mode_response : HTTPResponse :=
  {| status := 200;
     data := Doc (PDict [("value", PBool true);
                         ("variationType", PStr "enabled");
                         ("reason", PStr "TARGETING_MATCH")]) |}.

(** Scenario C of the spec. *)
Definition max_items_float_response : HTTPResponse :=
  {| status := 200;
     data := Doc (PDict [("value", PFloat 7%float);
                         ("variationType", PStr "v1");
                         ("reason", PStr "TARGETING_MATCH")]) |}.

(** Scenario D of the spec. *)
Definition rollout_disabled_response : HTTPResponse :=
  {| status := 200;
     data := Doc (PDict [("value", PFloat 0.5%float);
                         ("reason", PStr "DISABLED")]) |}.

Definition not_found_response : HTTPResponse :=
  {| status := 200;
     data := Doc (PDict [("value", PStr "red");
                         ("errorCode", PStr "FLAG_NOT_FOUND");
                         ("reason", PStr "ERROR")]) |}.

Definition boolean_for_int_response : HTTPResponse :=
  {| status := 200;
     data := Doc (PDict [("value", PBool true);
                         ("variationType", PStr "v1");
                         ("reason", PStr "TARGETING_MATCH")]) |}.

Definition int_for_float_response : HTTPResponse :=
  {| status := 200;
     data := Doc (PDict [("value", PInt 3);
                         ("variationType", PStr "v1");
                         ("reason", PStr "SPLIT")]) |}.

(** An object with an integer and a float leaf. *)
Definition nested_object_response : HTTPResponse :=
  {| status := 200;
     data := Doc (PDict [("value", PDict [("limit", PInt 3);
                                          ("ratio", PFloat 3%float);
                                          ("tags", PList [PInt 1])]);
                         ("variationType", PStr "v1");
                         ("reason", PStr "TARGETING_MATCH")]) |}.


(** ** The paths through the [try] block *)

(** The guard of lines 160-164 lets the response pass. *)
Definition guard_passes (t : PyType) (d : Payload) : Prop :=
  t = TInt -> exists n, raw_value d = Returns (PInt n).

(** The ways the [try] block of lines 131-183 ends, in the order of the
    statements: what the calls gave, and the outcome. *)
Inductive try_path (model : ResponseModel) (self : GoFeatureFlagProvider)
    (t : PyType) (k : string) (dv : json) (ctx : option EvaluationContext)
    : outcome FlagEvaluationDetails -> Prop :=
| path_client_raises (e : exn) :
    _http_client self (evaluation_request self k dv ctx) = Raises e ->
    try_path model self t k dv ctx (Raises e)
| path_status_404 (resp : HTTPResponse) :
    _http_client self (evaluation_request self k dv ctx) = Returns resp ->
    status resp = 404 ->
    try_path model self t k dv ctx
      (Raises (FlagNotFoundError
         ("flag " ++ k ++ " was not found in your configuration")))
| path_status_failed (resp : HTTPResponse) :
    _http_client self (evaluation_request self k dv ctx) = Returns resp ->
    400 <= status resp ->
    status resp <> 404 ->
    try_path model self t k dv ctx
      (Raises (GeneralError
         "impossible to contact GO Feature Flag relay proxy instance"))
| path_decode_raises (resp : HTTPResponse) (e : exn) :
    _http_client self (evaluation_request self k dv ctx) = Returns resp ->
    status resp < 400 ->
    parse_raw model t (data resp) = Raises e ->
    try_path model self t k dv ctx (Raises e)
| path_raw_raises (resp : HTTPResponse) (rfe : ResponseFlagEvaluation)
    (e : exn) :
    _http_client self (evaluation_request self k dv ctx) = Returns resp ->
    status resp < 400 ->
    parse_raw model t (data resp) = Returns rfe ->
    t = TInt ->
    raw_value (data resp) = Raises e ->
    try_path model self t k dv ctx (Raises e)
| path_guard_rejects (resp : HTTPResponse) (rfe : ResponseFlagEvaluation)
    (raw : json) :
    _http_client self (evaluation_request self k dv ctx) = Returns resp ->
    status resp < 400 ->
    parse_raw model t (data resp) = Returns rfe ->
    t = TInt ->
    raw_value (data resp) = Returns raw ->
    type_is_int raw = false ->
    try_path model self t k dv ctx
      (Raises (TypeMismatchError ("unexpected type for flag " ++ k)))
| path_disabled (resp : HTTPResponse) (rfe : ResponseFlagEvaluation) :
    _http_client self (evaluation_request self k dv ctx) = Returns resp ->
    status resp < 400 ->
    parse_raw model t (data resp) = Returns rfe ->
    guard_passes t (data resp) ->
    reason rfe = "DISABLED" ->
    try_path model self t k dv ctx
      (Returns {| flag_key := k; details_value := dv; variant := None;
                  details_reason := ReasonMember DISABLED |})
| path_not_found_code (resp : HTTPResponse) (rfe : ResponseFlagEvaluation) :
    _http_client self (evaluation_request self k dv ctx) = Returns resp ->
    status resp < 400 ->
    parse_raw model t (data resp) = Returns rfe ->
    guard_passes t (data resp) ->
    reason rfe <> "DISABLED" ->
    errorCode rfe = Some "FLAG_NOT_FOUND" ->
    try_path model self t k dv ctx
      (Raises (FlagNotFoundError
         ("flag " ++ k ++ " was not found in your configuration")))
| path_evaluated (resp : HTTPResponse) (rfe : ResponseFlagEvaluation) :
    _http_client self (evaluation_request self k dv ctx) = Returns resp ->
    status resp < 400 ->
    parse_raw model t (data resp) = Returns rfe ->
    guard_passes t (data resp) ->
    reason rfe <> "DISABLED" ->
    errorCode rfe <> Some "FLAG_NOT_FOUND" ->
    try_path model self t k dv ctx
      (Returns {| flag_key := k; details_value := value rfe;
                  variant := variationType rfe;
                  details_reason := ReasonText (reason rfe) |}).

(** The reference that line 140 formats and hands to [urljoin]. *)
Definition url_reference (u : Url) : string :=
  match u with
  | urljoin _ ref => ref
  end.

(** ** Test doubles *)

(** A provider whose HTTP client raises on every request, as a pool
    manager does when the relay proxy cannot be reached. *)
Definition failing_provider (e : exn) : GoFeatureFlagProvider :=
  {| options := {| endpoint := "http://localhost:1031" |};
     _http_client := fun _ => Raises e |}.

(** A response model whose decoding is mocked: it returns the same
    model for every payload. *)
Definition canned_model (rfe : ResponseFlagEvaluation) : ResponseModel :=
  {| parse_raw := fun _ _ => Returns rfe |}.

(** A response model whose decoding raises the same exception for every
    payload. *)
Definition failing_model (e : exn) : ResponseModel :=
  {| parse_raw := fun _ _ => Raises e |}.

(** A payload that is a JSON array of pairs and not an object. *)
Definition pairs_response : HTTPResponse :=
  {| status := 200;
     data := Doc (PList [PList [PStr "value"; PInt 3];
                         PList [PStr "reason"; PStr "SPLIT"]]) |}.

(** A payload without [value]. *)
Definition no_value_response : HTTPResponse :=
  {| status := 200;
     data := Doc (PDict [("variationType", PStr "v1");
                         ("reason", PStr "SPLIT")]) |}.

Definition int_response : HTTPResponse :=
  {| status := 200;
     data := Doc (PDict [("value", PInt 7);
                         ("variationType", PStr "v1");
                         ("reason", PStr "TARGETING_MATCH")]) |}.

(** * Properties *)

(** ** Strings *)

Lemma starts_with_app (p s : string) : starts_with p (p ++ s) = true.
Proof.
  induction p as [|a p IH]; simpl; [reflexivity|].
  now rewrite Ascii.eqb_refl, IH.
Qed.

Lemma contains_unfold (needle hay : string) :
  contains needle hay =
  starts_with needle hay ||
  match hay with
  | EmptyString => false
  | String _ hay' => contains needle hay'
  end.
Proof. destruct hay; reflexivity. Qed.

Lemma contains_app (pre needle post : string) :
  contains needle (pre ++ needle ++ post) = true.
Proof.
  induction pre as [|a pre IH]; simpl.
  - rewrite contains_unfold, starts_with_app. reflexivity.
  - rewrite IH. apply orb_true_r.
Qed.


Lemma contains_app_end (pre needle : string) :
  contains needle (pre ++ needle) = true.
Proof.
  induction pre as [|a pre IH]; simpl.
  - rewrite contains_unfold.
    replace needle with (needle ++ "") at 2.
    + now rewrite starts_with_app.
    + induction needle; simpl; congruence.
  - rewrite IH. apply orb_true_r.
Qed.

(** ** The status tests of lines 146 and 151 *)

Lemma status_evaluated (resp : HTTPResponse) :
  status resp < 400 ->
  (status resp =? 404) = false /\ (status resp >=? 400) = false.
Proof.
  intros H. split.
  - apply Z.eqb_neq. lia.
  - rewrite Z.geb_leb. apply Z.leb_gt. exact H.
Qed.

Lemma status_failed (resp : HTTPResponse) :
  400 <= status resp -> status resp <> 404 ->
  (status resp =? 404) = false /\ (status resp >=? 400) = true.
Proof.
  intros H N. split.
  - apply Z.eqb_neq. exact N.
  - rewrite Z.geb_leb. apply Z.leb_le. exact H.
Qed.

(** Once the client has answered with a status below 400, the [try]
    block is the interpretation of the payload. *)
Lemma resolver_try_evaluated (model : ResponseModel)
    (self : GoFeatureFlagProvider) (t : PyType) (k : string) (dv : json)
    (ctx : option EvaluationContext) (resp : HTTPResponse) :
  _http_client self (evaluation_request self k dv ctx) = Returns resp ->
  status resp < 400 ->
  resolver_try model self t k dv ctx =
  (rfe <- parse_raw model t (data resp) ;;
   _ <- (if PyType_eqb t TInt then
           raw <- raw_value (data resp) ;;
           if negb (type_is_int raw) then
             Raises (TypeMismatchError ("unexpected type for flag " ++ k))
           else Returns tt
         else Returns tt) ;;
   if String.eqb (reason rfe) (Reason_value DISABLED) then
     Returns {| flag_key := k; details_value := dv; variant := None;
                details_reason := ReasonMember DISABLED |}
   else if opt_str_eqb (errorCode rfe) (ErrorCode_value FLAG_NOT_FOUND) then
     Raises (FlagNotFoundError
       ("flag " ++ k ++ " was not found in your configuration"))
   else
     Returns {| flag_key := k; details_value := value rfe;
                variant := variationType rfe;
                details_reason := ReasonText (reason rfe) |}).
Proof.
  intros Hreq Hst. unfold resolver_try. rewrite Hreq. cbn [bind].
  destruct (status_evaluated resp Hst) as [-> ->]. reflexivity.
Qed.

(** The guard of lines 160-164 lets a response pass when the declared
    type is not [int], and when the raw value is an [int]. *)
Lemma int_guard_passes (t : PyType) (k : string) (d : Payload) :
  (t = TInt -> exists n, raw_value d = Returns (PInt n)) ->
  (if PyType_eqb t TInt then
     raw <- raw_value d ;;
     if negb (type_is_int raw) then
       Raises (TypeMismatchError ("unexpected type for flag " ++ k))
     else Returns tt
   else Returns tt) = Returns tt.
Proof.
  intros H. destruct t; try reflexivity.
  destruct (H eq_refl) as [n ->]. reflexivity.
Qed.

(** The decoder modelled from the spec raises nothing but validation
    errors and overflows. *)
Lemma spec_parse_raw_foreign (t : PyType) (d : Payload) :
  raises_open_feature (spec_parse_raw t d) = false.
Proof.
  destruct d as [why|j]; [reflexivity|].
  destruct j; try reflexivity. simpl.
  destruct (lookup "value" entries) as [raw|]; [|reflexivity].
  destruct (validate_value t raw) as [v|e] eqn:Hv.
  - cbn [bind].
    destruct (lookup "variationType" entries) as [[]|]; try reflexivity;
    cbn [validate_optional_str bind];
    (destruct (lookup "reason" entries) as [[]|]; try reflexivity;
     cbn [validate_required_str bind];
     destruct (lookup "errorCode" entries) as [[]|]; reflexivity).
  - cbn [bind raises_open_feature].
    destruct t, raw; simpl in Hv; try discriminate;
      try (injection Hv as <-; reflexivity).
    + destruct (int_of_float f); [discriminate|].
      injection Hv as <-. reflexivity.
    + destruct (float_of_int n); [discriminate|].
      injection Hv as <-. reflexivity.
Qed.

(** A value the modelled decoder returns has the declared type. *)
Lemma validate_value_typed (t : PyType) (raw v : json) :
  validate_value t raw = Returns v -> has_type t v = true.
Proof.
  destruct t, raw; simpl; intros H; try discriminate;
    try (injection H as <-; reflexivity).
  - destruct (int_of_float f); [|discriminate].
    injection H as <-. reflexivity.
  - destruct (float_of_int n); [|discriminate].
    injection H as <-. reflexivity.
Qed.

(** The modelled decoder keeps a value of the declared type as it is. *)
Lemma validate_value_matching (t : PyType) (raw : json) :
  has_type t raw = true -> validate_value t raw = Returns raw.
Proof. destruct t, raw; simpl; intros H; try discriminate; reflexivity. Qed.

(** A raw value that is not an [int] makes integer resolution raise
    the type mismatch of line 164, whatever the decoder returned. *)
Lemma non_int_raw_is_rejected (model : ResponseModel)
    (self : GoFeatureFlagProvider) (k : string) (dv : json)
    (ctx : option EvaluationContext) (resp : HTTPResponse)
    (rfe : ResponseFlagEvaluation) (raw : json) :
  _http_client self (evaluation_request self k dv ctx) = Returns resp ->
  status resp < 400 ->
  parse_raw model TInt (data resp) = Returns rfe ->
  raw_value (data resp) = Returns raw ->
  type_is_int raw = false ->
  generic_go_feature_flag_resolver model self TInt k dv ctx =
  Raises (TypeMismatchError ("unexpected type for flag " ++ k)).
Proof.
  intros Hreq Hst Hparse Hraw Hty.
  unfold generic_go_feature_flag_resolver.
  rewrite (resolver_try_evaluated model self TInt k dv ctx resp Hreq Hst).
  rewrite Hparse. cbn [bind PyType_eqb]. rewrite Hraw. cbn [bind].
  rewrite Hty. reflexivity.
Qed.

(** ** The claims *)

(** C1, amended. When the client answers with a status below 400, the
    decoded response has reason DISABLED and, for the declared type
    [int], the raw JSON value is an integer, the resolver returns
    details with the caller's default value unchanged, no variant and
    the reason [Reason.DISABLED], for every declared type and default. *)
Theorem disabled_returns_default (model : ResponseModel)
    (self : GoFeatureFlagProvider) (t : PyType) (k : string) (dv : json)
    (ctx : option EvaluationContext) (resp : HTTPResponse)
    (rfe : ResponseFlagEvaluation) :
  _http_client self (evaluation_request self k dv ctx) = Returns resp ->
  status resp < 400 ->
  parse_raw model t (data resp) = Returns rfe ->
  (t = TInt -> exists n, raw_value (data resp) = Returns (PInt n)) ->
  reason rfe = "DISABLED" ->
  generic_go_feature_flag_resolver model self t k dv ctx =
  Returns {| flag_key := k; details_value := dv; variant := None;
             details_reason := ReasonMember DISABLED |}.
Proof.
  intros Hreq Hst Hparse Hguard Hreason.
  unfold generic_go_feature_flag_resolver.
  rewrite (resolver_try_evaluated model self t k dv ctx resp Hreq Hst).
  rewrite Hparse. cbn [bind]. rewrite (int_guard_passes t k _ Hguard).
  cbn [bind]. rewrite Hreason. reflexivity.
Qed.

Lemma disabled_returns_default_witness :
  parse_raw spec_model TFloat (data rollout_disabled_response) =
    Returns {| value := PFloat 0.5%float; variationType := None;
               reason := "DISABLED"; errorCode := None |} /\
  generic_go_feature_flag_resolver spec_model
    (canned_provider rollout_disabled_response) TFloat "rollout-pct"
    (PFloat 0.25%float) None =
  Returns {| flag_key := "rollout-pct"; details_value := PFloat 0.25%float;
             variant := None; details_reason := ReasonMember DISABLED |}.
Proof.
  split; [reflexivity|].
  apply (disabled_returns_default spec_model
           (canned_provider rollout_disabled_response) TFloat "rollout-pct"
           (PFloat 0.25%float) None rollout_disabled_response
           {| value := PFloat 0.5%float; variationType := None;
              reason := "DISABLED"; errorCode := None |}).
  - reflexivity.
  - reflexivity.
  - reflexivity.
  - discriminate.
  - reflexivity.
Defined.

(** C1 as stated fails for the declared type [int]: a response whose
    decoded reason is DISABLED and whose raw value is the float literal
    3.0 is decoded, and the guard of line 163 raises a type mismatch
    before the reason is looked at. *)
Lemma disabled_int_float_counterexample :
  parse_raw spec_model TInt (data disabled_float_response) =
    Returns {| value := PInt 3; variationType := None;
               reason := "DISABLED"; errorCode := None |} /\
  generic_go_feature_flag_resolver spec_model
    (canned_provider disabled_float_response) TInt "max-items" (PInt 10) None =
  Raises (TypeMismatchError "unexpected type for flag max-items") /\
  generic_go_feature_flag_resolver spec_model
    (canned_provider disabled_float_response) TInt "max-items" (PInt 10) None <>
  Returns {| flag_key := "max-items"; details_value := PInt 10;
             variant := None; details_reason := ReasonMember DISABLED |}.
Proof.
  split; [reflexivity|]. split; [reflexivity|]. discriminate.
Qed.

(** C2, amended. For every response with a status of 400 or more other
    than 404 the resolver raises a General error; its message is the
    fixed text of line 153, the same for every flag key. *)
Theorem failed_status_raises_general (model : ResponseModel)
    (self : GoFeatureFlagProvider) (t : PyType) (k : string) (dv : json)
    (ctx : option EvaluationContext) (resp : HTTPResponse) :
  _http_client self (evaluation_request self k dv ctx) = Returns resp ->
  400 <= status resp ->
  status resp <> 404 ->
  generic_go_feature_flag_resolver model self t k dv ctx =
  Raises (GeneralError
    "impossible to contact GO Feature Flag relay proxy instance").
Proof.
  intros Hreq Hst Hnf.
  unfold generic_go_feature_flag_resolver, resolver_try.
  rewrite Hreq. cbn [bind].
  destruct (status_failed resp Hst Hnf) as [-> ->]. reflexivity.
Qed.

Lemma failed_status_raises_general_witness :
  generic_go_feature_flag_resolver spec_model
    (canned_provider server_error_response) TStr "banner" (PStr "red") None =
  Raises (GeneralError
    "impossible to contact GO Feature Flag relay proxy instance").
Proof.
  apply (failed_status_raises_general spec_model
           (canned_provider server_error_response) TStr "banner" (PStr "red")
           None server_error_response).
  - reflexivity.
  - discriminate.
  - discriminate.
Defined.

(** C2 as stated fails: on a response with status 500 the General
    error is raised, and its message does not include the flag key. *)
Lemma failed_status_message_counterexample :
  generic_go_feature_flag_resolver spec_model
    (canned_provider server_error_response) TBool "dark-mode" (PBool false)
    None =
  Raises (GeneralError
    "impossible to contact GO Feature Flag relay proxy instance") /\
  contains "dark-mode"
    "impossible to contact GO Feature Flag relay proxy instance" = false.
Proof. split; reflexivity. Qed.

(** C3. Integer resolution of a response with a status below 400 whose
    raw JSON [value] is a float literal raises TypeMismatch, although
    the typed decoding succeeded. *)
Theorem float_literal_is_rejected_for_int (model : ResponseModel)
    (self : GoFeatureFlagProvider) (k : string) (dv : json)
    (ctx : option EvaluationContext) (resp : HTTPResponse)
    (rfe : ResponseFlagEvaluation) (entries : list (string * json))
    (f : float) :
  _http_client self (evaluation_request self k dv ctx) = Returns resp ->
  status resp < 400 ->
  parse_raw model TInt (data resp) = Returns rfe ->
  data resp = Doc (PDict entries) ->
  lookup "value" entries = Some (PFloat f) ->
  resolve_integer_details model self k dv ctx =
  Raises (TypeMismatchError ("unexpected type for flag " ++ k)).
Proof.
  intros Hreq Hst Hparse Hdata Hvalue.
  apply (non_int_raw_is_rejected model self k dv ctx resp rfe (PFloat f));
    try assumption; [|reflexivity].
  rewrite Hdata. unfold raw_value. cbn [json_loads bind py_get].
  rewrite Hvalue. reflexivity.
Qed.

Lemma float_literal_is_rejected_for_int_witness :
  parse_raw spec_model TInt (data max_items_float_response) =
    Returns {| value := PInt 7; variationType := Some "v1";
               reason := "TARGETING_MATCH"; errorCode := None |} /\
  resolve_integer_details spec_model
    (canned_provider max_items_float_response) "max-items" (PInt 10) None =
  Raises (TypeMismatchError "unexpected type for flag max-items").
Proof.
  split; [reflexivity|].
  apply (float_literal_is_rejected_for_int spec_model
           (canned_provider max_items_float_response) "max-items" (PInt 10)
           None max_items_float_response
           {| value := PInt 7; variationType := Some "v1";
              reason := "TARGETING_MATCH"; errorCode := None |}
           [("value", PFloat 7%float); ("variationType", PStr "v1");
            ("reason", PStr "TARGETING_MATCH")] 7%float);
    reflexivity.
Defined.





(** C5. For every declared type and default value, a response with
    status 404 makes the resolver raise a NotFound error whose message
    names the flag key. *)
Theorem status_404_raises_not_found (model : ResponseModel)
    (self : GoFeatureFlagProvider) (t : PyType) (k : string) (dv : json)
    (ctx : option EvaluationContext) (resp : HTTPResponse) :
  _http_client self (evaluation_request self k dv ctx) = Returns resp ->
  status resp = 404 ->
  generic_go_feature_flag_resolver model self t k dv ctx =
  Raises (FlagNotFoundError
    ("flag " ++ k ++ " was not found in your configuration")) /\
  contains k ("flag " ++ k ++ " was not found in your configuration") = true.
Proof.
  intros Hreq Hst. split.
  - unfold generic_go_feature_flag_resolver, resolver_try.
    rewrite Hreq. cbn [bind]. rewrite Hst. reflexivity.
  - apply contains_app.
Qed.

Lemma status_404_raises_not_found_witness :
  generic_go_feature_flag_resolver spec_model
    (canned_provider missing_flag_response) TStr "missing-flag" (PStr "red")
    None =
  Raises (FlagNotFoundError
    "flag missing-flag was not found in your configuration") /\
  contains "missing-flag"
    "flag missing-flag was not found in your configuration" = true.
Proof.
  apply (status_404_raises_not_found spec_model
           (canned_provider missing_flag_response) TStr "missing-flag"
           (PStr "red") None missing_flag_response); reflexivity.
Defined.

(** C6, amended. When the client answers with a status below 400, the
    decoded response has the error code FLAG_NOT_FOUND and a reason
    other than DISABLED and, for the declared type [int], the raw JSON
    value is an integer, the resolver raises a NotFound error whose
    message names the flag key. *)
Theorem flag_not_found_code_raises_not_found (model : ResponseModel)
    (self : GoFeatureFlagProvider) (t : PyType) (k : string) (dv : json)
    (ctx : option EvaluationContext) (resp : HTTPResponse)
    (rfe : ResponseFlagEvaluation) :
  _http_client self (evaluation_request self k dv ctx) = Returns resp ->
  status resp < 400 ->
  parse_raw model t (data resp) = Returns rfe ->
  (t = TInt -> exists n, raw_value (data resp) = Returns (PInt n)) ->
  reason rfe <> "DISABLED" ->
  errorCode rfe = Some "FLAG_NOT_FOUND" ->
  generic_go_feature_flag_resolver model self t k dv ctx =
  Raises (FlagNotFoundError
    ("flag " ++ k ++ " was not found in your configuration")) /\
  contains k ("flag " ++ k ++ " was not found in your configuration") = true.
Proof.
  intros Hreq Hst Hparse Hguard Hreason Hcode. split.
  - unfold generic_go_feature_flag_resolver.
    rewrite (resolver_try_evaluated model self t k dv ctx resp Hreq Hst).
    rewrite Hparse. cbn [bind]. rewrite (int_guard_passes t k _ Hguard).
    cbn [bind]. apply String.eqb_neq in Hreason. cbn [Reason_value].
    rewrite Hreason, Hcode. reflexivity.
  - apply contains_app.
Qed.

Lemma flag_not_found_code_raises_not_found_witness :
  parse_raw spec_model TStr (data not_found_response) =
    Returns {| value := PStr "red"; variationType := None;
               reason := "ERROR"; errorCode := Some "FLAG_NOT_FOUND" |} /\
  generic_go_feature_flag_resolver spec_model
    (canned_provider not_found_response) TStr "banner" (PStr "red") None =
  Raises (FlagNotFoundError "flag banner was not found in your configuration").
Proof.
  split; [reflexivity|].
  apply (flag_not_found_code_raises_not_found spec_model
           (canned_provider not_found_response) TStr "banner" (PStr "red")
           None not_found_response
           {| value := PStr "red"; variationType := None;
              reason := "ERROR"; errorCode := Some "FLAG_NOT_FOUND" |}).
  - reflexivity.
  - reflexivity.
  - reflexivity.
  - discriminate.
  - discriminate.
  - reflexivity.
Defined.

(** C6 as stated fails for the declared type [int]: a response with
    status 200 whose decoded error code is FLAG_NOT_FOUND, whose reason
    is not DISABLED and whose raw value is the float literal 3.0 raises
    a type mismatch, not NotFound. *)
Lemma not_found_int_float_counterexample :
  parse_raw spec_model TInt (data not_found_float_response) =
    Returns {| value := PInt 3; variationType := None;
               reason := "ERROR"; errorCode := Some "FLAG_NOT_FOUND" |} /\
  generic_go_feature_flag_resolver spec_model
    (canned_provider not_found_float_response) TInt "max-items" (PInt 10)
    None =
  Raises (TypeMismatchError "unexpected type for flag max-items") /\
  generic_go_feature_flag_resolver spec_model
    (canned_provider not_found_float_response) TInt "max-items" (PInt 10)
    None <>
  Raises (FlagNotFoundError
    "flag max-items was not found in your configuration").
Proof.
  split; [reflexivity|]. split; [reflexivity|]. discriminate.
Qed.

(** C7. For every declared type, a response with a status below 400
    that is a JSON object whose [value] is of the declared type, decoded
    with that value, a reason other than DISABLED and an error code
    other than FLAG_NOT_FOUND, yields details with the decoded value,
    the variation type as variant and the reason of the response; the
    value is of exactly the declared type. *)
Theorem matching_value_is_returned (model : ResponseModel)
    (self : GoFeatureFlagProvider) (t : PyType) (k : string) (dv : json)
    (ctx : option EvaluationContext) (resp : HTTPResponse)
    (rfe : ResponseFlagEvaluation) (entries : list (string * json)) :
  _http_client self (evaluation_request self k dv ctx) = Returns resp ->
  status resp < 400 ->
  data resp = Doc (PDict entries) ->
  lookup "value" entries = Some (value rfe) ->
  has_type t (value rfe) = true ->
  parse_raw model t (data resp) = Returns rfe ->
  reason rfe <> "DISABLED" ->
  errorCode rfe <> Some "FLAG_NOT_FOUND" ->
  exists details,
    generic_go_feature_flag_resolver model self t k dv ctx = Returns details /\
    flag_key details = k /\
    details_value details = value rfe /\
    variant details = variationType rfe /\
    details_reason details = ReasonText (reason rfe) /\
    has_type t (details_value details) = true.
Proof.
  intros Hreq Hst Hdata Hvalue Hty Hparse Hreason Hcode.
  exists {| flag_key := k; details_value := value rfe;
            variant := variationType rfe;
            details_reason := ReasonText (reason rfe) |}.
  repeat split; try assumption.
  unfold generic_go_feature_flag_resolver.
  rewrite (resolver_try_evaluated model self t k dv ctx resp Hreq Hst).
  rewrite Hparse. cbn [bind]. rewrite int_guard_passes.
  - cbn [bind Reason_value]. apply String.eqb_neq in Hreason.
    rewrite Hreason.
    replace (opt_str_eqb (errorCode rfe) (ErrorCode_value FLAG_NOT_FOUND))
      with false; [reflexivity|].
    destruct (errorCode rfe) as [c|]; [|reflexivity]. simpl.
    symmetry. apply String.eqb_neq. congruence.
  - intros ->. destruct (value rfe) eqn:Hv; try discriminate Hty.
    exists n. rewrite Hdata. unfold raw_value.
    cbn [json_loads bind py_get]. rewrite Hvalue. reflexivity.
Qed.

Lemma matching_value_is_returned_witness :
  exists details,
    generic_go_feature_flag_resolver spec_model
      (canned_provider dark_mode_response) TBool "dark-mode" (PBool false)
      (Some {| targeting_key := "user-123"; attributes := [] |}) =
    Returns details /\
    flag_key details = "dark-mode" /\
    details_value details = PBool true /\
    variant details = Some "enabled" /\
    details_reason details = ReasonText "TARGETING_MATCH" /\
    has_type TBool (details_value details) = true.
Proof.
  apply (matching_value_is_returned spec_model
           (canned_provider dark_mode_response) TBool "dark-mode"
           (PBool false)
           (Some {| targeting_key := "user-123"; attributes := [] |})
           dark_mode_response
           {| value := PBool true; variationType := Some "enabled";
              reason := "TARGETING_MATCH"; errorCode := None |}
           [("value", PBool true); ("variationType", PStr "enabled");
            ("reason", PStr "TARGETING_MATCH")]);
    try reflexivity; discriminate.
Defined.

(** C8. For every declared type, when the decoding of the payload of a
    response with a status below 400 raises a validation error, the
    resolver raises a TypeMismatch error whose message names the flag
    key. *)
Theorem decoding_failure_raises_type_mismatch (model : ResponseModel)
    (self : GoFeatureFlagProvider) (t : PyType) (k : string) (dv : json)
    (ctx : option EvaluationContext) (resp : HTTPResponse)
    (errors : string) :
  _http_client self (evaluation_request self k dv ctx) = Returns resp ->
  status resp < 400 ->
  parse_raw model t (data resp) = Raises (ValidationError errors) ->
  generic_go_feature_flag_resolver model self t k dv ctx =
  Raises (TypeMismatchError ("unexpected type for flag " ++ k)) /\
  contains k ("unexpected type for flag " ++ k) = true.
Proof.
  intros Hreq Hst Hparse. split.
  - unfold generic_go_feature_flag_resolver.
    rewrite (resolver_try_evaluated model self t k dv ctx resp Hreq Hst).
    rewrite Hparse. reflexivity.
  - apply contains_app_end.
Qed.

Lemma decoding_failure_raises_type_mismatch_witness :
  generic_go_feature_flag_resolver spec_model
    (canned_provider dark_mode_response) TStr "banner" (PStr "red") None =
  Raises (TypeMismatchError "unexpected type for flag banner") /\
  contains "banner" "unexpected type for flag banner" = true.
Proof.
  apply (decoding_failure_raises_type_mismatch spec_model
           (canned_provider dark_mode_response) TStr "banner" (PStr "red")
           None dark_mode_response "value has not the declared type");
    reflexivity.
Defined.

(** C9. The guard on the raw JSON value is applied only for the
    declared type [int]: for every other declared type, float and
    object among them, the outcome is computed from the decoded
    response alone, whatever the kind of the raw value and of its
    leaves. *)
Theorem raw_kind_guard_only_for_int (model : ResponseModel)
    (self : GoFeatureFlagProvider) (t : PyType) (k : string) (dv : json)
    (ctx : option EvaluationContext) (resp : HTTPResponse)
    (rfe : ResponseFlagEvaluation) :
  _http_client self (evaluation_request self k dv ctx) = Returns resp ->
  status resp < 400 ->
  t <> TInt ->
  parse_raw model t (data resp) = Returns rfe ->
  generic_go_feature_flag_resolver model self t k dv ctx =
  if String.eqb (reason rfe) "DISABLED" then
    Returns {| flag_key := k; details_value := dv; variant := None;
               details_reason := ReasonMember DISABLED |}
  else if opt_str_eqb (errorCode rfe) "FLAG_NOT_FOUND" then
    Raises (FlagNotFoundError
      ("flag " ++ k ++ " was not found in your configuration"))
  else
    Returns {| flag_key := k; details_value := value rfe;
               variant := variationType rfe;
               details_reason := ReasonText (reason rfe) |}.
Proof.
  intros Hreq Hst Ht Hparse.
  unfold generic_go_feature_flag_resolver.
  rewrite (resolver_try_evaluated model self t k dv ctx resp Hreq Hst).
  rewrite Hparse. cbn [bind]. rewrite int_guard_passes by contradiction.
  cbn [bind Reason_value ErrorCode_value].
  destruct (String.eqb (reason rfe) "DISABLED"); [reflexivity|].
  destruct (opt_str_eqb (errorCode rfe) "FLAG_NOT_FOUND"); reflexivity.
Qed.

Lemma raw_kind_guard_only_for_int_witness :
  raw_value (data int_for_float_response) = Returns (PInt 3) /\
  resolve_float_details spec_model (canned_provider int_for_float_response)
    "rollout-pct" (PFloat 0.5%float) None =
  Returns {| flag_key := "rollout-pct"; details_value := PFloat 3%float;
             variant := Some "v1"; details_reason := ReasonText "SPLIT" |}.
Proof.
  split; [reflexivity|].
  apply (raw_kind_guard_only_for_int spec_model
           (canned_provider int_for_float_response) TFloat "rollout-pct"
           (PFloat 0.5%float) None int_for_float_response
           {| value := PFloat 3%float; variationType := Some "v1";
              reason := "SPLIT"; errorCode := None |}).
  - reflexivity.
  - reflexivity.
  - discriminate.
  - reflexivity.
Defined.

(** Object resolution returns the decoded object with its numeric
    leaves as they came. *)
Example object_leaves_are_not_inspected :
  resolve_object_details spec_model (canned_provider nested_object_response)
    "limits" (PDict []) None =
  Returns {| flag_key := "limits";
             details_value := PDict [("limit", PInt 3);
                                     ("ratio", PFloat 3%float);
                                     ("tags", PList [PInt 1])];
             variant := Some "v1";
             details_reason := ReasonText "TARGETING_MATCH" |}.
Proof. reflexivity. Qed.

(** C10. Integer resolution of a response with a status below 400 whose
    raw JSON [value] is a boolean raises TypeMismatch, although the
    typed decoding succeeded: the guard wants the type of the raw value
    to be exactly [int]. *)
Theorem boolean_is_rejected_for_int (model : ResponseModel)
    (self : GoFeatureFlagProvider) (k : string) (dv : json)
    (ctx : option EvaluationContext) (resp : HTTPResponse)
    (rfe : ResponseFlagEvaluation) (entries : list (string * json))
    (b : bool) :
  _http_client self (evaluation_request self k dv ctx) = Returns resp ->
  status resp < 400 ->
  parse_raw model TInt (data resp) = Returns rfe ->
  data resp = Doc (PDict entries) ->
  lookup "value" entries = Some (PBool b) ->
  resolve_integer_details model self k dv ctx =
  Raises (TypeMismatchError ("unexpected type for flag " ++ k)).
Proof.
  intros Hreq Hst Hparse Hdata Hvalue.
  apply (non_int_raw_is_rejected model self k dv ctx resp rfe (PBool b));
    try assumption; [|reflexivity].
  rewrite Hdata. unfold raw_value. cbn [json_loads bind py_get].
  rewrite Hvalue. reflexivity.
Qed.

Lemma boolean_is_rejected_for_int_witness :
  parse_raw spec_model TInt (data boolean_for_int_response) =
    Returns {| value := PInt 1; variationType := Some "v1";
               reason := "TARGETING_MATCH"; errorCode := None |} /\
  resolve_integer_details spec_model
    (canned_provider boolean_for_int_response) "max-items" (PInt 10) None =
  Raises (TypeMismatchError "unexpected type for flag max-items").
Proof.
  split; [reflexivity|].
  apply (boolean_is_rejected_for_int spec_model
           (canned_provider boolean_for_int_response) "max-items" (PInt 10)
           None boolean_for_int_response
           {| value := PInt 1; variationType := Some "v1";
              reason := "TARGETING_MATCH"; errorCode := None |}
           [("value", PBool true); ("variationType", PStr "v1");
            ("reason", PStr "TARGETING_MATCH")] true);
    reflexivity.
Defined.

(** ** Further properties of the resolver *)

Lemma status_cases (resp : HTTPResponse) :
  (status resp = 404 /\ (status resp =? 404) = true) \/
  (400 <= status resp /\ status resp <> 404 /\
   (status resp =? 404) = false /\ (status resp >=? 400) = true) \/
  (status resp < 400 /\
   (status resp =? 404) = false /\ (status resp >=? 400) = false).
Proof.
  destruct (Z.eq_dec (status resp) 404) as [E|N].
  - left. split; [exact E|]. now apply Z.eqb_eq.
  - right. destruct (Z_lt_le_dec (status resp) 400) as [L|G].
    + right. split; [exact L|]. now apply status_evaluated.
    + left. split; [exact G|]. split; [exact N|].
      now apply status_failed.
Qed.

(** The [try] block ends in one of the nine ways. *)
Lemma resolver_try_path (model : ResponseModel)
    (self : GoFeatureFlagProvider) (t : PyType) (k : string) (dv : json)
    (ctx : option EvaluationContext) :
  try_path model self t k dv ctx (resolver_try model self t k dv ctx).
Proof.
  unfold resolver_try.
  destruct (_http_client self (evaluation_request self k dv ctx))
    as [resp|e] eqn:Hreq; cbn [bind].
  2:{ now apply path_client_raises. }
  destruct (status_cases resp) as [[E ->]|[(G & N & -> & ->)|(L & -> & ->)]].
  { now apply path_status_404 with resp. }
  { now apply path_status_failed with resp. }
  destruct (parse_raw model t (data resp)) as [rfe|e] eqn:Hparse; cbn [bind].
  2:{ now apply path_decode_raises with resp. }
  assert (Htail : guard_passes t (data resp) ->
    try_path model self t k dv ctx
      (if String.eqb (reason rfe) (Reason_value DISABLED) then
         Returns {| flag_key := k; details_value := dv; variant := None;
                    details_reason := ReasonMember DISABLED |}
       else if opt_str_eqb (errorCode rfe) (ErrorCode_value FLAG_NOT_FOUND)
       then Raises (FlagNotFoundError
              ("flag " ++ k ++ " was not found in your configuration"))
       else Returns {| flag_key := k; details_value := value rfe;
                       variant := variationType rfe;
                       details_reason := ReasonText (reason rfe) |})).
  { intros Hguard. cbn [Reason_value ErrorCode_value].
    destruct (String.eqb_spec (reason rfe) "DISABLED") as [Hd|Hd].
    { now apply path_disabled with resp rfe. }
    destruct (errorCode rfe) as [c|] eqn:Hc; cbn [opt_str_eqb].
    - destruct (String.eqb_spec c "FLAG_NOT_FOUND") as [->|Hn].
      + now apply path_not_found_code with resp rfe.
      + apply path_evaluated with resp; try assumption.
        rewrite Hc. congruence.
    - apply path_evaluated with resp; try assumption.
      rewrite Hc. discriminate. }
  destruct (PyType_eqb t TInt) eqn:Ht.
  - assert (t = TInt) as Hint by (destruct t; (reflexivity || discriminate)).
    destruct (raw_value (data resp)) as [raw|e] eqn:Hraw; cbn [bind].
    2:{ now apply path_raw_raises with resp rfe. }
    destruct (type_is_int raw) eqn:Hty; cbn [negb bind].
    + apply Htail. intros _. destruct raw; try discriminate Hty.
      now exists n.
    + now apply path_guard_rejects with resp rfe raw.
  - cbn [bind]. apply Htail. intros ->. discriminate Ht.
Qed.

Lemma raw_value_raises_other (d : Payload) (e : exn) :
  raw_value d = Raises e -> exists text, e = OtherException text.
Proof.
  destruct d as [why|j]; unfold raw_value; cbn [json_loads bind].
  - intros H. injection H as <-. now exists why.
  - destruct j; cbn [py_get]; intros H; try discriminate;
      injection H as <-; eexists; reflexivity.
Qed.

Lemma append_length (a b : string) :
  String.length (a ++ b) = (String.length a + String.length b)%nat.
Proof. induction a as [|x a IH]; simpl; [reflexivity|]. now rewrite IH. Qed.

Lemma append_cancel_r (a b s : string) : a ++ s = b ++ s -> a = b.
Proof.
  revert b. induction a as [|x a IH]; intros [|y b] H.
  - reflexivity.
  - apply (f_equal String.length) in H. simpl in H.
    rewrite append_length in H. lia.
  - apply (f_equal String.length) in H. simpl in H.
    rewrite append_length in H. lia.
  - simpl in H. injection H as -> H. f_equal. now apply IH.
Qed.

(** X1. When the HTTP client raises an exception that is neither a
    validation error nor an OpenFeature error (connection refused, time
    out), the resolver raises a General error whose message is the text
    of line 192 with the flag key and the text of the cause. *)
Theorem transport_failure_raises_general (model : ResponseModel)
    (self : GoFeatureFlagProvider) (t : PyType) (k : string) (dv : json)
    (ctx : option EvaluationContext) (text : string) :
  _http_client self (evaluation_request self k dv ctx) =
    Raises (OtherException text) ->
  generic_go_feature_flag_resolver model self t k dv ctx =
  Raises (GeneralError
    ("unexpected error while evaluating flag " ++ k ++ ": " ++ text)).
Proof.
  intros Hreq. unfold generic_go_feature_flag_resolver, resolver_try.
  rewrite Hreq. reflexivity.
Qed.

Lemma transport_failure_raises_general_witness :
  generic_go_feature_flag_resolver spec_model
    (failing_provider (OtherException "Connection refused")) TBool
    "dark-mode" (PBool false) None =
  Raises (GeneralError
    "unexpected error while evaluating flag dark-mode: Connection refused").
Proof.
  apply (transport_failure_raises_general spec_model
           (failing_provider (OtherException "Connection refused")) TBool
           "dark-mode" (PBool false) None "Connection refused").
  reflexivity.
Defined.

(** X2. When the decoding of the payload of a response with a status
    below 400 raises an exception that is neither a validation error nor
    an OpenFeature error, the resolver raises a General error with the
    flag key and the text of the cause, for every declared type. *)
Theorem decoder_exception_raises_general (model : ResponseModel)
    (self : GoFeatureFlagProvider) (t : PyType) (k : string) (dv : json)
    (ctx : option EvaluationContext) (resp : HTTPResponse) (text : string) :
  _http_client self (evaluation_request self k dv ctx) = Returns resp ->
  status resp < 400 ->
  parse_raw model t (data resp) = Raises (OtherException text) ->
  generic_go_feature_flag_resolver model self t k dv ctx =
  Raises (GeneralError
    ("unexpected error while evaluating flag " ++ k ++ ": " ++ text)).
Proof.
  intros Hreq Hst Hparse. unfold generic_go_feature_flag_resolver.
  rewrite (resolver_try_evaluated model self t k dv ctx resp Hreq Hst).
  rewrite Hparse. reflexivity.
Qed.

Lemma decoder_exception_raises_general_witness :
  generic_go_feature_flag_resolver
    (failing_model (OtherException "maximum recursion depth exceeded"))
    (canned_provider dark_mode_response) TObject "layout" (PDict []) None =
  Raises (GeneralError
    "unexpected error while evaluating flag layout: maximum recursion depth exceeded").
Proof.
  apply (decoder_exception_raises_general
           (failing_model (OtherException "maximum recursion depth exceeded"))
           (canned_provider dark_mode_response) TObject "layout" (PDict [])
           None dark_mode_response "maximum recursion depth exceeded");
    reflexivity.
Defined.

(** X3. For integer resolution of a decoded response with a status
    below 400 whose raw JSON could be read, the type mismatch of line
    164 is raised exactly when the raw [value] is not of type [int]. *)
Theorem int_guard_exact (model : ResponseModel)
    (self : GoFeatureFlagProvider) (k : string) (dv : json)
    (ctx : option EvaluationContext) (resp : HTTPResponse)
    (rfe : ResponseFlagEvaluation) (raw : json) :
  _http_client self (evaluation_request self k dv ctx) = Returns resp ->
  status resp < 400 ->
  parse_raw model TInt (data resp) = Returns rfe ->
  raw_value (data resp) = Returns raw ->
  (resolve_integer_details model self k dv ctx =
     Raises (TypeMismatchError ("unexpected type for flag " ++ k)) <->
   type_is_int raw = false).
Proof.
  intros Hreq Hst Hparse Hraw. split.
  - destruct (type_is_int raw) eqn:Hty; [|reflexivity].
    unfold resolve_integer_details, generic_go_feature_flag_resolver.
    rewrite (resolver_try_evaluated model self TInt k dv ctx resp Hreq Hst).
    rewrite Hparse. cbn [bind PyType_eqb]. rewrite Hraw. cbn [bind].
    rewrite Hty. cbn [negb bind].
    destruct (String.eqb _ _); [discriminate|].
    destruct (opt_str_eqb _ _); discriminate.
  - intros Hty.
    now apply (non_int_raw_is_rejected model self k dv ctx resp rfe raw).
Qed.

Lemma int_guard_exact_witness :
  resolve_integer_details spec_model (canned_provider int_response)
    "max-items" (PInt 10) None =
  Raises (TypeMismatchError "unexpected type for flag max-items") <->
  type_is_int (PInt 7) = false.
Proof.
  apply (int_guard_exact spec_model (canned_provider int_response)
           "max-items" (PInt 10) None int_response
           {| value := PInt 7; variationType := Some "v1";
              reason := "TARGETING_MATCH"; errorCode := None |} (PInt 7));
    reflexivity.
Defined.

(** X4. Integer resolution of a response with a status below 400 whose
    JSON object has no [value] raises TypeMismatch, whether the decoder
    returns a model or rejects the payload with a validation error:
    [dict.get] gives [None], which is not an [int]. *)
Theorem missing_value_is_rejected_for_int (model : ResponseModel)
    (self : GoFeatureFlagProvider) (k : string) (dv : json)
    (ctx : option EvaluationContext) (resp : HTTPResponse)
    (entries : list (string * json)) :
  _http_client self (evaluation_request self k dv ctx) = Returns resp ->
  status resp < 400 ->
  data resp = Doc (PDict entries) ->
  lookup "value" entries = None ->
  (forall e, parse_raw model TInt (data resp) = Raises e ->
             exists errors, e = ValidationError errors) ->
  resolve_integer_details model self k dv ctx =
  Raises (TypeMismatchError ("unexpected type for flag " ++ k)).
Proof.
  intros Hreq Hst Hdata Hvalue Hfail.
  destruct (parse_raw model TInt (data resp)) as [rfe|e] eqn:Hparse.
  - apply (non_int_raw_is_rejected model self k dv ctx resp rfe PNone);
      try assumption; [|reflexivity].
    rewrite Hdata. unfold raw_value. cbn [json_loads bind py_get].
    rewrite Hvalue. reflexivity.
  - destruct (Hfail e eq_refl) as [errors ->].
    unfold resolve_integer_details, generic_go_feature_flag_resolver.
    rewrite (resolver_try_evaluated model self TInt k dv ctx resp Hreq Hst).
    rewrite Hparse. reflexivity.
Qed.

Lemma missing_value_is_rejected_for_int_witness :
  resolve_integer_details spec_model (canned_provider no_value_response)
    "max-items" (PInt 10) None =
  Raises (TypeMismatchError "unexpected type for flag max-items").
Proof.
  apply (missing_value_is_rejected_for_int spec_model
           (canned_provider no_value_response) "max-items" (PInt 10) None
           no_value_response
           [("variationType", PStr "v1"); ("reason", PStr "SPLIT")]).
  - reflexivity.
  - reflexivity.
  - reflexivity.
  - reflexivity.
  - intros e H. injection H as <-. eexists. reflexivity.
Defined.

(** X5. For integer resolution, when the decoder returns a model for a
    payload whose JSON document is not an object, [response_json.get] of
    line 163 fails and the resolver raises a General error whose message
    has the flag key and names the type that has no [get]. *)
Theorem non_object_payload_raises_general (model : ResponseModel)
    (self : GoFeatureFlagProvider) (k : string) (dv : json)
    (ctx : option EvaluationContext) (resp : HTTPResponse)
    (rfe : ResponseFlagEvaluation) (j : json) :
  _http_client self (evaluation_request self k dv ctx) = Returns resp ->
  status resp < 400 ->
  parse_raw model TInt (data resp) = Returns rfe ->
  data resp = Doc j ->
  (forall entries, j <> PDict entries) ->
  resolve_integer_details model self k dv ctx =
  Raises (GeneralError
    ("unexpected error while evaluating flag " ++ k ++ ": '" ++
     type_name j ++ "' object has no attribute 'get'")).
Proof.
  intros Hreq Hst Hparse Hdata Hj.
  unfold resolve_integer_details, generic_go_feature_flag_resolver.
  rewrite (resolver_try_evaluated model self TInt k dv ctx resp Hreq Hst).
  rewrite Hparse, Hdata. cbn [bind PyType_eqb]. unfold raw_value.
  cbn [json_loads bind].
  destruct j; try reflexivity. now destruct (Hj entries).
Qed.

Lemma non_object_payload_raises_general_witness :
  resolve_integer_details
    (canned_model {| value := PInt 3; variationType := None;
                     reason := "SPLIT"; errorCode := None |})
    (canned_provider pairs_response) "max-items" (PInt 10) None =
  Raises (GeneralError
    "unexpected error while evaluating flag max-items: 'list' object has no attribute 'get'").
Proof.
  apply (non_object_payload_raises_general
           (canned_model {| value := PInt 3; variationType := None;
                            reason := "SPLIT"; errorCode := None |})
           (canned_provider pairs_response) "max-items" (PInt 10) None
           pairs_response
           {| value := PInt 3; variationType := None;
              reason := "SPLIT"; errorCode := None |}
           (PList [PList [PStr "value"; PInt 3];
                   PList [PStr "reason"; PStr "SPLIT"]]));
    try reflexivity.
  intros entries. discriminate.
Defined.

(** X6. The resolver returns details only after the HTTP client
    answered with a status below 400, the payload was decoded and the
    guard let it pass. The details carry the requested flag key, and
    either the caller's default with the reason [Reason.DISABLED] (when
    the decoded reason is DISABLED) or the decoded value, variation and
    reason: no other value is ever returned. *)
Theorem returned_details_inversion (model : ResponseModel)
    (self : GoFeatureFlagProvider) (t : PyType) (k : string) (dv : json)
    (ctx : option EvaluationContext) (details : FlagEvaluationDetails) :
  generic_go_feature_flag_resolver model self t k dv ctx = Returns details ->
  exists resp rfe,
    _http_client self (evaluation_request self k dv ctx) = Returns resp /\
    status resp < 400 /\
    parse_raw model t (data resp) = Returns rfe /\
    guard_passes t (data resp) /\
    flag_key details = k /\
    ((reason rfe = "DISABLED" /\
      details = {| flag_key := k; details_value := dv; variant := None;
                   details_reason := ReasonMember DISABLED |}) \/
     (reason rfe <> "DISABLED" /\
      errorCode rfe <> Some "FLAG_NOT_FOUND" /\
      details = {| flag_key := k; details_value := value rfe;
                   variant := variationType rfe;
                   details_reason := ReasonText (reason rfe) |})).
Proof.
  unfold generic_go_feature_flag_resolver. intros H.
  pose proof (resolver_try_path model self t k dv ctx) as P.
  remember (resolver_try model self t k dv ctx) as o eqn:Ho. clear Ho.
  destruct P; cbn [try_except] in H; try discriminate H;
    injection H as <-; exists resp, rfe.
  - repeat split; try assumption. left. now split.
  - repeat split; try assumption. right. now repeat split.
Qed.

Lemma returned_details_inversion_witness :
  exists resp rfe,
    _http_client (canned_provider dark_mode_response)
      (evaluation_request (canned_provider dark_mode_response) "dark-mode"
         (PBool false) None) = Returns resp /\
    status resp < 400 /\
    parse_raw spec_model TBool (data resp) = Returns rfe /\
    guard_passes TBool (data resp) /\
    flag_key {| flag_key := "dark-mode"; details_value := PBool true;
                variant := Some "enabled";
                details_reason := ReasonText "TARGETING_MATCH" |} =
      "dark-mode" /\
    ((reason rfe = "DISABLED" /\
      {| flag_key := "dark-mode"; details_value := PBool true;
         variant := Some "enabled";
         details_reason := ReasonText "TARGETING_MATCH" |} =
      {| flag_key := "dark-mode"; details_value := PBool false;
         variant := None; details_reason := ReasonMember DISABLED |}) \/
     (reason rfe <> "DISABLED" /\
      errorCode rfe <> Some "FLAG_NOT_FOUND" /\
      {| flag_key := "dark-mode"; details_value := PBool true;
         variant := Some "enabled";
         details_reason := ReasonText "TARGETING_MATCH" |} =
      {| flag_key := "dark-mode"; details_value := value rfe;
         variant := variationType rfe;
         details_reason := ReasonText (reason rfe) |})).
Proof.
  apply (returned_details_inversion spec_model
           (canned_provider dark_mode_response) TBool "dark-mode"
           (PBool false) None).
  reflexivity.
Defined.

(** X7. When the HTTP client and the decoder raise no OpenFeature
    error themselves, a NotFound error is raised only for a response
    with status 404, or for a decoded response with a status below 400,
    the error code FLAG_NOT_FOUND and a reason other than DISABLED; its
    message is always the text of lines 148 and 175 with the flag key. *)
Theorem not_found_inversion (model : ResponseModel)
    (self : GoFeatureFlagProvider) (t : PyType) (k : string) (dv : json)
    (ctx : option EvaluationContext) (msg : string) :
  (forall rq, raises_open_feature (_http_client self rq) = false) ->
  (forall ty d, raises_open_feature (parse_raw model ty d) = false) ->
  generic_go_feature_flag_resolver model self t k dv ctx =
    Raises (OpenFeatureError FLAG_NOT_FOUND msg) ->
  msg = "flag " ++ k ++ " was not found in your configuration" /\
  exists resp,
    _http_client self (evaluation_request self k dv ctx) = Returns resp /\
    (status resp = 404 \/
     (status resp < 400 /\
      exists rfe,
        parse_raw model t (data resp) = Returns rfe /\
        guard_passes t (data resp) /\
        reason rfe <> "DISABLED" /\
        errorCode rfe = Some "FLAG_NOT_FOUND")).
Proof.
  unfold generic_go_feature_flag_resolver. intros Hclient Hmodel H.
  pose proof (resolver_try_path model self t k dv ctx) as P.
  remember (resolver_try model self t k dv ctx) as o eqn:Ho. clear Ho.
  destruct P as [e Hreq|resp Hreq Hst|resp Hreq Hst Hnf|resp e Hreq Hst Hp
                |resp rfe e Hreq Hst Hp Ht Hraw|resp rfe raw Hreq Hst Hp Ht Hraw Hty
                |resp rfe Hreq Hst Hp Hg Hr|resp rfe Hreq Hst Hp Hg Hr Hc
                |resp rfe Hreq Hst Hp Hg Hr Hc];
    cbn [try_except resolver_except] in H; try discriminate H.
  - specialize (Hclient (evaluation_request self k dv ctx)).
    rewrite Hreq in Hclient.
    destruct e; cbn in Hclient, H; discriminate.
  - injection H as <-. split; [reflexivity|].
    exists resp. split; [assumption|]. now left.
  - specialize (Hmodel t (data resp)). rewrite Hp in Hmodel.
    destruct e; cbn in Hmodel, H; discriminate.
  - destruct (raw_value_raises_other _ _ Hraw) as [text ->].
    discriminate H.
  - injection H as <-. split; [reflexivity|].
    exists resp. split; [assumption|]. right. split; [assumption|].
    now exists rfe.
Qed.

Lemma not_found_inversion_witness :
  "flag banner was not found in your configuration" =
  "flag " ++ "banner" ++ " was not found in your configuration" /\
  exists resp,
    _http_client (canned_provider not_found_response)
      (evaluation_request (canned_provider not_found_response) "banner"
         (PStr "red") None) = Returns resp /\
    (status resp = 404 \/
     (status resp < 400 /\
      exists rfe,
        parse_raw spec_model TStr (data resp) = Returns rfe /\
        guard_passes TStr (data resp) /\
        reason rfe <> "DISABLED" /\
        errorCode rfe = Some "FLAG_NOT_FOUND")).
Proof.
  apply (not_found_inversion spec_model (canned_provider not_found_response)
           TStr "banner" (PStr "red") None
           "flag banner was not found in your configuration").
  - intros rq. reflexivity.
  - intros ty d. apply spec_parse_raw_foreign.
  - reflexivity.
Defined.

(** X8. When the HTTP client and the decoder raise no OpenFeature
    error themselves, a TypeMismatch error is raised only when a
    validation error was raised (by the decoding of a response with a
    status below 400, or before the response was there), or when the
    guard of integer resolution found a raw value that is not an [int];
    its message is always the text of lines 164 and 185 with the flag
    key. *)
Theorem type_mismatch_inversion (model : ResponseModel)
    (self : GoFeatureFlagProvider) (t : PyType) (k : string) (dv : json)
    (ctx : option EvaluationContext) (msg : string) :
  (forall rq, raises_open_feature (_http_client self rq) = false) ->
  (forall ty d, raises_open_feature (parse_raw model ty d) = false) ->
  generic_go_feature_flag_resolver model self t k dv ctx =
    Raises (OpenFeatureError TYPE_MISMATCH msg) ->
  msg = "unexpected type for flag " ++ k /\
  ((exists errors,
      _http_client self (evaluation_request self k dv ctx) =
      Raises (ValidationError errors)) \/
   (exists resp,
      _http_client self (evaluation_request self k dv ctx) = Returns resp /\
      status resp < 400 /\
      ((exists errors,
          parse_raw model t (data resp) = Raises (ValidationError errors)) \/
       (exists rfe raw,
          t = TInt /\
          parse_raw model t (data resp) = Returns rfe /\
          raw_value (data resp) = Returns raw /\
          type_is_int raw = false)))).
Proof.
  unfold generic_go_feature_flag_resolver. intros Hclient Hmodel H.
  pose proof (resolver_try_path model self t k dv ctx) as P.
  remember (resolver_try model self t k dv ctx) as o eqn:Ho. clear Ho.
  destruct P as [e Hreq|resp Hreq Hst|resp Hreq Hst Hnf|resp e Hreq Hst Hp
                |resp rfe e Hreq Hst Hp Ht Hraw|resp rfe raw Hreq Hst Hp Ht Hraw Hty
                |resp rfe Hreq Hst Hp Hg Hr|resp rfe Hreq Hst Hp Hg Hr Hc
                |resp rfe Hreq Hst Hp Hg Hr Hc];
    cbn [try_except resolver_except] in H; try discriminate H.
  - specialize (Hclient (evaluation_request self k dv ctx)).
    rewrite Hreq in Hclient.
    destruct e as [errors|c m|text]; cbn in Hclient, H; try discriminate.
    injection H as <-. split; [reflexivity|]. left. now exists errors.
  - specialize (Hmodel t (data resp)). rewrite Hp in Hmodel.
    destruct e as [errors|c m|text]; cbn in Hmodel, H; try discriminate.
    injection H as <-. split; [reflexivity|]. right.
    exists resp. repeat split; try assumption. left. now exists errors.
  - destruct (raw_value_raises_other _ _ Hraw) as [text ->].
    discriminate H.
  - injection H as <-. split; [reflexivity|]. right.
    exists resp. repeat split; try assumption. right.
    now exists rfe, raw.
Qed.

Lemma type_mismatch_inversion_witness :
  "unexpected type for flag max-items" =
  "unexpected type for flag " ++ "max-items" /\
  ((exists errors,
      _http_client (canned_provider max_items_float_response)
        (evaluation_request (canned_provider max_items_float_response)
           "max-items" (PInt 10) None) =
      Raises (ValidationError errors)) \/
   (exists resp,
      _http_client (canned_provider max_items_float_response)
        (evaluation_request (canned_provider max_items_float_response)
           "max-items" (PInt 10) None) = Returns resp /\
      status resp < 400 /\
      ((exists errors,
          parse_raw spec_model TInt (data resp) =
          Raises (ValidationError errors)) \/
       (exists rfe raw,
          TInt = TInt /\
          parse_raw spec_model TInt (data resp) = Returns rfe /\
          raw_value (data resp) = Returns raw /\
          type_is_int raw = false)))).
Proof.
  apply (type_mismatch_inversion spec_model
           (canned_provider max_items_float_response) TInt "max-items"
           (PInt 10) None "unexpected type for flag max-items").
  - intros rq. reflexivity.
  - intros ty d. apply spec_parse_raw_foreign.
  - reflexivity.
Defined.

(** X9. When the HTTP client and the decoder raise no OpenFeature
    error themselves, a General error is raised only for a response with
    a status of 400 or more other than 404, with the fixed message of
    line 153, or when the HTTP client, the decoding or the reading of
    the raw JSON of integer resolution raised an exception that is not a
    validation error, with the flag key and the text of that exception
    in the message. *)
Theorem general_error_inversion (model : ResponseModel)
    (self : GoFeatureFlagProvider) (t : PyType) (k : string) (dv : json)
    (ctx : option EvaluationContext) (msg : string) :
  (forall rq, raises_open_feature (_http_client self rq) = false) ->
  (forall ty d, raises_open_feature (parse_raw model ty d) = false) ->
  generic_go_feature_flag_resolver model self t k dv ctx =
    Raises (OpenFeatureError GENERAL msg) ->
  (exists resp,
     _http_client self (evaluation_request self k dv ctx) = Returns resp /\
     400 <= status resp /\ status resp <> 404 /\
     msg = "impossible to contact GO Feature Flag relay proxy instance") \/
  (exists text,
     msg = "unexpected error while evaluating flag " ++ k ++ ": " ++ text /\
     (_http_client self (evaluation_request self k dv ctx) =
        Raises (OtherException text) \/
      exists resp,
        _http_client self (evaluation_request self k dv ctx) =
          Returns resp /\
        status resp < 400 /\
        (parse_raw model t (data resp) = Raises (OtherException text) \/
         (t = TInt /\
          (exists rfe, parse_raw model t (data resp) = Returns rfe) /\
          raw_value (data resp) = Raises (OtherException text))))).
Proof.
  unfold generic_go_feature_flag_resolver. intros Hclient Hmodel H.
  pose proof (resolver_try_path model self t k dv ctx) as P.
  remember (resolver_try model self t k dv ctx) as o eqn:Ho. clear Ho.
  destruct P as [e Hreq|resp Hreq Hst|resp Hreq Hst Hnf|resp e Hreq Hst Hp
                |resp rfe e Hreq Hst Hp Ht Hraw|resp rfe raw Hreq Hst Hp Ht Hraw Hty
                |resp rfe Hreq Hst Hp Hg Hr|resp rfe Hreq Hst Hp Hg Hr Hc
                |resp rfe Hreq Hst Hp Hg Hr Hc];
    cbn [try_except resolver_except] in H; try discriminate H.
  - specialize (Hclient (evaluation_request self k dv ctx)).
    rewrite Hreq in Hclient.
    destruct e as [errors|c m|text]; cbn in Hclient, H; try discriminate.
    injection H as <-. right. exists text. split; [reflexivity|]. now left.
  - injection H as <-. left. now exists resp.
  - specialize (Hmodel t (data resp)). rewrite Hp in Hmodel.
    destruct e as [errors|c m|text]; cbn in Hmodel, H; try discriminate.
    injection H as <-. right. exists text. split; [reflexivity|]. right.
    exists resp. repeat split; try assumption. now left.
  - destruct (raw_value_raises_other _ _ Hraw) as [text ->].
    cbn in H. injection H as <-. right. exists text.
    split; [reflexivity|]. right. exists resp.
    repeat split; try assumption. right. repeat split; try assumption.
    now exists rfe.
Qed.

Lemma general_error_inversion_witness :
  (exists resp,
     _http_client (canned_provider server_error_response)
       (evaluation_request (canned_provider server_error_response) "banner"
          (PStr "red") None) = Returns resp /\
     400 <= status resp /\ status resp <> 404 /\
     "impossible to contact GO Feature Flag relay proxy instance" =
     "impossible to contact GO Feature Flag relay proxy instance") \/
  (exists text,
     "impossible to contact GO Feature Flag relay proxy instance" =
     "unexpected error while evaluating flag " ++ "banner" ++ ": " ++ text /\
     (_http_client (canned_provider server_error_response)
        (evaluation_request (canned_provider server_error_response) "banner"
           (PStr "red") None) = Raises (OtherException text) \/
      exists resp,
        _http_client (canned_provider server_error_response)
          (evaluation_request (canned_provider server_error_response)
             "banner" (PStr "red") None) = Returns resp /\
        status resp < 400 /\
        (parse_raw spec_model TStr (data resp) =
           Raises (OtherException text) \/
         (TStr = TInt /\
          (exists rfe, parse_raw spec_model TStr (data resp) = Returns rfe) /\
          raw_value (data resp) = Raises (OtherException text))))).
Proof.
  apply (general_error_inversion spec_model
           (canned_provider server_error_response) TStr "banner"
           (PStr "red") None
           "impossible to contact GO Feature Flag relay proxy instance").
  - intros rq. reflexivity.
  - intros ty d. apply spec_parse_raw_foreign.
  - reflexivity.
Defined.

(** X10. Integer resolution of a decoded response with a status below
    400 whose raw JSON [value] is an integer has the outcome every other
    declared type has: the default for a disabled flag, NotFound for
    the error code FLAG_NOT_FOUND, the decoded value otherwise. *)
Theorem int_resolution_after_guard (model : ResponseModel)
    (self : GoFeatureFlagProvider) (k : string) (dv : json)
    (ctx : option EvaluationContext) (resp : HTTPResponse)
    (rfe : ResponseFlagEvaluation) (n : Z) :
  _http_client self (evaluation_request self k dv ctx) = Returns resp ->
  status resp < 400 ->
  parse_raw model TInt (data resp) = Returns rfe ->
  raw_value (data resp) = Returns (PInt n) ->
  resolve_integer_details model self k dv ctx =
  if String.eqb (reason rfe) "DISABLED" then
    Returns {| flag_key := k; details_value := dv; variant := None;
               details_reason := ReasonMember DISABLED |}
  else if opt_str_eqb (errorCode rfe) "FLAG_NOT_FOUND" then
    Raises (FlagNotFoundError
      ("flag " ++ k ++ " was not found in your configuration"))
  else
    Returns {| flag_key := k; details_value := value rfe;
               variant := variationType rfe;
               details_reason := ReasonText (reason rfe) |}.
Proof.
  intros Hreq Hst Hparse Hraw.
  unfold resolve_integer_details, generic_go_feature_flag_resolver.
  rewrite (resolver_try_evaluated model self TInt k dv ctx resp Hreq Hst).
  rewrite Hparse. cbn [bind PyType_eqb]. rewrite Hraw.
  cbn [bind type_is_int negb Reason_value ErrorCode_value].
  destruct (String.eqb (reason rfe) "DISABLED"); [reflexivity|].
  destruct (opt_str_eqb (errorCode rfe) "FLAG_NOT_FOUND"); reflexivity.
Qed.

Lemma int_resolution_after_guard_witness :
  resolve_integer_details spec_model (canned_provider int_response)
    "max-items" (PInt 10) None =
  Returns {| flag_key := "max-items"; details_value := PInt 7;
             variant := Some "v1";
             details_reason := ReasonText "TARGETING_MATCH" |}.
Proof.
  apply (int_resolution_after_guard spec_model (canned_provider int_response)
           "max-items" (PInt 10) None int_response
           {| value := PInt 7; variationType := Some "v1";
              reason := "TARGETING_MATCH"; errorCode := None |} 7);
    reflexivity.
Defined.

(** X11. The [except] clauses never wrap twice: an error they have
    raised is left unchanged when it passes the clauses of another
    resolution, whatever its flag key. *)
Theorem resolver_except_wraps_once (k k' : string) (exc : exn) :
  resolver_except k' (resolver_except k exc) = resolver_except k exc /\
  is_open_feature_error (resolver_except k exc) = true.
Proof. destruct exc; split; reflexivity. Qed.

(** X12. The reference that line 140 formats for [urljoin] determines
    the flag key: two requests are given the same reference exactly
    when they have the same flag key. Nothing is said of the URL that
    [urljoin] makes of the endpoint and the reference. *)
Theorem request_reference_determines_flag_key
    (self self' : GoFeatureFlagProvider) (k k' : string) (dv dv' : json)
    (ctx ctx' : option EvaluationContext) :
  url_reference (url (evaluation_request self k dv ctx)) =
  url_reference (url (evaluation_request self' k' dv' ctx')) <->
  k = k'.
Proof.
  unfold evaluation_request. cbn [url url_reference]. split.
  - intros H. injection H as H. now apply append_cancel_r in H.
  - intros ->. reflexivity.
Qed.
